(** * Category administration front end: image upload and category form

    A shallow embedding of the client-side logic of the category
    administration UI:

    - [ImageUpload]: the file-change handler of the image upload widget and
      the URL helper [prepareImageUrl];
    - [CategoryForm]: the edit-mode load, the parent dropdown, the schema
      validation and the submit handler of the category form.

    Calls into the outside world (notifications, the upload callback,
    navigation, the category service) are recorded as a trace of effects,
    in the order in which the code performs them. *)

From Stdlib Require Import ZArith Ascii Bool.
From Stdlib Require String.
From stdpp Require Import base option list strings gmap.
From stdpp Require Import pretty.

Local Open Scope Z_scope.

(** ** JavaScript primitives used by the components *)

Module Js.

(** [s.startsWith(p)] *)
Definition startsWith (s p : string) : bool := String.prefix p s.

(** [s.includes(p)]: [p] occurs at some position of [s]. *)
Fixpoint includes (s p : string) : bool :=
  String.prefix p s ||
  match s with
  | EmptyString => false
  | String _ s' => includes s' p
  end.

(** Truthiness of a [string | null] value: [null] and the empty string are
    falsy. The result is the string itself when truthy. *)
Definition truthy (v : option string) : option string :=
  match v with
  | Some EmptyString => None
  | Some s => Some s
  | None => None
  end.

(** [v || fallback] on a [string | null | undefined] value. *)
Definition or_else (v : option string) (fallback : string) : string :=
  match truthy v with
  | Some s => s
  | None => fallback
  end.

(** Numbers as the components use them: integer identifiers, and the
    other results of [parseInt], [NaN] and the two infinities. *)
Inductive number : Type :=
| NaN
| Num (z : Z)
| Infinity (negative : bool).

(** [a !== b] on numbers: [NaN] differs from everything, itself included. *)
Definition strict_neq (a b : number) : bool :=
  match a, b with
  | Num x, Num y => negb (Z.eqb x y)
  | Infinity x, Infinity y => negb (Bool.eqb x y)
  | _, _ => true
  end.

(** [isNaN(n)] *)
Definition isNaN (n : number) : bool :=
  match n with
  | NaN => true
  | _ => false
  end.

(** Truthiness of a number: [0] and [NaN] are falsy. *)
Definition truthy_number (n : number) : bool :=
  match n with
  | NaN => false
  | Num z => negb (Z.eqb z 0)
  | Infinity _ => true
  end.

(** Number of occurrences of a character in a string. *)
Fixpoint occurrences (c : ascii) (s : string) : nat :=
  match s with
  | EmptyString => 0%nat
  | String a s' => ((if Ascii.eqb a c then 1 else 0) + occurrences c s')%nat
  end.

End Js.

(** ** Notifications ([showNotification(message, severity)]) *)

Inductive Severity : Type :=
| SevInfo
| SevSuccess
| SevError.

(** ** Image upload widget *)

Module ImageUpload.
Import Js.

(** The parts of a browser [File] the handler reads. *)
Record File : Type := mkFile {
  file_name : string;
  file_size : Z;
  file_type : string
}.

Definition ALLOWED_IMAGE_TYPES : list string :=
  ["image/jpeg"; "image/jpg"; "image/png"; "image/gif"; "image/webp"].

Definition MAX_FILE_SIZE : Z := 5 * 1024 * 1024.

(** *** [prepareImageUrl]

    [API_BASE_URL] and the value returned by [getToken()] come from
    modules outside the component; they are parameters here. *)
Section PrepareImageUrl.
Variable API_BASE_URL : string.
Variable getToken : option string.

Definition prepareImageUrl (imageUrl : string) : string :=
  if startsWith imageUrl "http://" || startsWith imageUrl "https://" then
    if includes imageUrl API_BASE_URL then
      let token := getToken in
      let hasParams := includes imageUrl "?" in
      match truthy token with
      | Some t =>
          imageUrl +:+ (if hasParams then "&" else "?") +:+ "auth_token=" +:+ t
      | None => imageUrl
      end
    else imageUrl
  else
    let baseUrl := API_BASE_URL in
    let token := getToken in
    let normalizedUrl :=
      if startsWith imageUrl "/"
      then baseUrl +:+ imageUrl
      else baseUrl +:+ "/" +:+ imageUrl in
    match truthy token with
    | Some t => normalizedUrl +:+ "?auth_token=" +:+ t
    | None => normalizedUrl
    end.
End PrepareImageUrl.

(** *** [handleFileChange] *)

Inductive Effect : Type :=
| ShowNotification (message : string) (severity : Severity)
| OnUpload (file : File)
| ResetInputValue.

(** Body of the [forEach] callback. *)
Definition processFile (file : File) : list Effect :=
  if 5 * 1024 * 1024 <? file_size file then
    [ShowNotification
       ("File " +:+ file_name file +:+ " is too large. Maximum size is 5MB.")
       SevError]
  else if negb (startsWith (file_type file) "image/") then
    [ShowNotification ("File " +:+ file_name file +:+ " is not an image.")
       SevError]
  else [OnUpload file].

(** [files] is [event.target.files] ([null] when absent); [refAttached]
    tells whether [fileInputRef.current] is set. *)
Definition handleFileChange (files : option (list File)) (refAttached : bool)
  : list Effect :=
  match files with
  | Some fs =>
      if (0 <? length fs)%nat then
        flat_map processFile fs
          ++ (if refAttached then [ResetInputValue] else [])
      else []
  | None => []
  end.

(** Observations on a trace. *)
Definition uploaded (trace : list Effect) : list File :=
  flat_map (λ e, match e with OnUpload f => [f] | _ => [] end) trace.

Definition notices (trace : list Effect) : list (string * Severity) :=
  flat_map (λ e, match e with ShowNotification m s => [(m, s)] | _ => [] end)
    trace.

(** The acceptance criterion in the words of the specification: at most
    5,242,880 bytes and a MIME type starting with ["image/"]. *)
Definition acceptable (f : File) : bool :=
  (file_size f <=? 5242880) && startsWith (file_type f) "image/".

(** The notification a rejected file gets. *)
Definition rejection (f : File) : string * Severity :=
  if 5242880 <? file_size f
  then ("File " +:+ file_name f +:+ " is too large. Maximum size is 5MB.",
        SevError)
  else ("File " +:+ file_name f +:+ " is not an image.", SevError).

Definition selection (files : option (list File)) : list File :=
  default [] files.

(** The test that opens [prepareImageUrl]:
    [imageUrl.startsWith('http://') || imageUrl.startsWith('https://')] *)
Definition isAbsolute (url : string) : bool :=
  startsWith url "http://" || startsWith url "https://".

(** A selection with an oversized image, two valid images and a text file. *)
Definition sampleSelection : list File :=
  [ mkFile "huge.png" 6000000 "image/png";
    mkFile "first.png" 5242880 "image/png";
    mkFile "notes.txt" 12 "text/plain";
    mkFile "second.gif" 100 "image/gif" ].

End ImageUpload.

(** ** Category form *)

Module CategoryForm.
Import Js.

(** Modelled from the spec: the response envelope of the category service,
    [{status, message?, data?}]; its declaration (module
    [types/api-responses]) is not part of the sources. *)
Record ApiResponse (T : Type) : Type := mkResponse {
  resp_status : string;
  resp_message : option string;
  resp_data : option T
}.
Arguments mkResponse {T} _ _ _.
Arguments resp_status {T} _.
Arguments resp_message {T} _.
Arguments resp_data {T} _.

(** [status: "ACTIVE" | "INACTIVE"] *)
Inductive Status : Type :=
| ACTIVE
| INACTIVE.

(** Modelled from the spec: [CategorySummary], the id+name projection that
    fills the parent dropdown (declared in [types/api-responses]). *)
Record CategorySummary : Type := mkSummary {
  summary_id : number;
  summary_name : string
}.

(** Modelled from the spec: [CategoryResponse] (declared in
    [types/api-responses]). The fields are those of [Category] in
    [types/category.types.ts], with its optional, recursive
    [parentCategory], and the audit strings the form reads; the audit
    strings may be missing. *)
Module CategoryResponse.
#[warnings="-register-all"] Inductive t : Type := mk {
  id : number;
  name : string;
  description : string;
  parentCategory : option t;
  status : Status;
  createdBy : option string;
  lastModifiedBy : option string;
  createdAt : option string;
  updatedAt : option string
}.
End CategoryResponse.

(** [parentCategoryId?: number | null] *)
Inductive ParentId : Type :=
| PidUndefined
| PidNull
| PidNumber (n : number).

(** [CategoryFormData]: the values held by the form library. *)
Module FormData.
Record t : Type := mk {
  name : string;
  description : string;
  parentCategoryId : ParentId
}.
End FormData.

(** Component state: the form values and the [useState] cells. *)
Record State : Type := mkState {
  values : FormData.t;
  isActive : bool;
  createdBy : string;
  lastModifiedBy : string;
  createdAt : string;
  updatedAt : string
}.

(** [defaultValues] of [useForm] and the initial [useState] values. *)
Definition initialState : State :=
  {| values := FormData.mk "" "" PidNull;
     isActive := true;
     createdBy := ""; lastModifiedBy := ""; createdAt := ""; updatedAt := "" |}.

(** [Boolean(id)] on the route parameter. *)
Definition isEditMode (id : option string) : bool :=
  match truthy id with
  | Some _ => true
  | None => false
  end.

(** [x?.id || null] *)
Definition parentIdOf (parent : option CategoryResponse.t) : ParentId :=
  match parent with
  | Some p =>
      if truthy_number (CategoryResponse.id p)
      then PidNumber (CategoryResponse.id p)
      else PidNull
  | None => PidNull
  end.

Definition statusEqb (a b : Status) : bool :=
  match a, b with
  | ACTIVE, ACTIVE | INACTIVE, INACTIVE => true
  | _, _ => false
  end.

(** The [.then] callback of the category fetch. *)
Definition onCategoryFetched
    (response : option (ApiResponse CategoryResponse.t)) (st : State) : State :=
  match response with
  | Some r =>
      if String.eqb (resp_status r) "SUCCESS" then
        match resp_data r with
        | Some category =>
            {| values :=
                 FormData.mk (CategoryResponse.name category)
                   (CategoryResponse.description category)
                   (parentIdOf (CategoryResponse.parentCategory category));
               isActive := statusEqb (CategoryResponse.status category) ACTIVE;
               createdBy := or_else (CategoryResponse.createdBy category) "";
               lastModifiedBy :=
                 or_else (CategoryResponse.lastModifiedBy category) "";
               createdAt := or_else (CategoryResponse.createdAt category) "";
               updatedAt := or_else (CategoryResponse.updatedAt category) "" |}
        | None => st
        end
      else st
  | None => st
  end.

(** *** The builtin [parseInt]

    The form reads the route id with the builtin [parseInt]. What the
    builtin returns is outside the component, so it is a parameter of the
    definitions from here on: every result about them holds for whatever
    number it returns. *)
Section RouteId.
Variable parseInt : string → number.

(** The part of the mount effect that loads the category being edited;
    [fetchCategory] is what the request hook resolves to. *)
Definition loadCategory
    (fetchCategory : number → option (ApiResponse CategoryResponse.t))
    (id : option string) (st : State) : State :=
  match truthy id with
  | Some i => onCategoryFetched (fetchCategory (parseInt i)) st
  | None => st
  end.

(** Entries of the parent dropdown:
    [categories?.filter(cat => !isEditMode || cat.id !== parseInt(id || '0'))] *)
Definition parentCandidates
    (categories : option (list CategorySummary)) (id : option string)
  : option (list CategorySummary) :=
  List.filter
    (λ cat, negb (isEditMode id)
            || strict_neq (summary_id cat) (parseInt (or_else id "0")))
  <$> categories.

(** *** Schema validation and [handleSubmit]

    The schema is the component's; what [required], the resolver and
    [handleSubmit] do is the documented behaviour of the form libraries:
    a required string rejects the empty string, all field errors are
    collected, and the callback runs only when there is none. *)

Definition required (message : string) (value : string) : option string :=
  match value with
  | EmptyString => Some message
  | _ => None
  end.

(** [.transform(value => isNaN(value) ? null : value)] on a nullable number *)
Definition transformParentId (v : ParentId) : ParentId :=
  match v with
  | PidNumber n => if isNaN n then PidNull else v
  | _ => v
  end.

Definition fieldError (field : string) (e : option string)
  : gmap string string :=
  match e with
  | Some m => {[ field := m ]}
  | None => ∅
  end.

(** The checks of [schema], field by field; [parentCategoryId] has none:
    it is nullable and its transform maps [NaN] to [null]. *)
Definition schema : list (string * (FormData.t → option string)) :=
  [ ("name", λ d, required "Category name is required" (FormData.name d));
    ("description",
     λ d, required "Description is required" (FormData.description d)) ].

(** The resolver: every failing field with its message. *)
Definition schemaErrors (data : FormData.t) : gmap string string :=
  foldr (λ '(field, check) errors, fieldError field (check data) ∪ errors)
    ∅ schema.

Definition schemaCast (data : FormData.t) : FormData.t :=
  FormData.mk (FormData.name data) (FormData.description data)
    (transformParentId (FormData.parentCategoryId data)).

(** Result: the [errors] of the form state, and what the callback returned
    if it was invoked. *)
Definition handleSubmit {A : Type} (onValid : FormData.t → A)
    (data : FormData.t) : gmap string string * option A :=
  let errors := schemaErrors data in
  if decide (errors = ∅) then (∅, Some (onValid (schemaCast data)))
  else (errors, None).

(** *** [onSubmit] *)

Inductive JsValue : Type :=
| JUndefined
| JNumber (n : number)
| JString (s : string).

Inductive Request : Type :=
| UpdateCategory (id : number) (payload : gmap string JsValue)
| CreateCategory (payload : gmap string JsValue).

(** What was thrown: an [Error] instance with its message, or another value. *)
Inductive Thrown : Type :=
| ThrownError (message : string)
| ThrownOther.

Inductive Outcome : Type :=
| Resolved (response : option (ApiResponse unit))
| Rejected (error : Thrown).

Inductive Effect : Type :=
| ShowNotification (message : string) (severity : Severity)
| ServiceCall (request : Request)
| Navigate (path : string)
| ConsoleError (error : Thrown).

(** [{name, description, ...(parentCategoryId !== null && {parentCategoryId})}] *)
Definition formData (data : FormData.t) : gmap string JsValue :=
  let base : gmap string JsValue :=
    <["description" := JString (FormData.description data)]>
      (<["name" := JString (FormData.name data)]> ∅) in
  match FormData.parentCategoryId data with
  | PidNull => base
  | PidUndefined => <["parentCategoryId" := JUndefined]> base
  | PidNumber n => <["parentCategoryId" := JNumber n]> base
  end.

Definition requestData (isActive : bool) (data : FormData.t)
  : gmap string JsValue :=
  <["status" := JString (if isActive then "ACTIVE" else "INACTIVE")]>
    (formData data).

Definition submitRequest (id : option string) (isActive : bool)
    (data : FormData.t) : Request :=
  match truthy id with
  | Some i => UpdateCategory (parseInt i) (requestData isActive data)
  | None => CreateCategory (requestData isActive data)
  end.

(** [response?.status === 'SUCCESS'] *)
Definition isSuccess (response : option (ApiResponse unit)) : bool :=
  match response with
  | Some r => String.eqb (resp_status r) "SUCCESS"
  | None => false
  end.

Definition onSubmit (service : Request → Outcome) (id : option string)
    (isActive : bool) (data : FormData.t) : list Effect :=
  let request := submitRequest id isActive data in
  ShowNotification "Saving category..." SevInfo
  :: ServiceCall request
  :: match service request with
     | Resolved response =>
         if isSuccess response then
           [ShowNotification
              (if isEditMode id then "Category updated successfully"
               else "Category created successfully") SevSuccess;
            Navigate "/categories"]
         else
           [ShowNotification
              ("Failed to " +:+ (if isEditMode id then "update" else "create")
               +:+ " category: "
               +:+ or_else (response ≫= resp_message) "Unknown error")
              SevError]
     | Rejected error =>
         [ConsoleError error;
          ShowNotification
            ("Error: " +:+ match error with
                           | ThrownError m => m
                           | ThrownOther => "Unknown error"
                           end) SevError]
     end.

(** Observations on a trace. *)
Definition serviceCalls (trace : list Effect) : list Request :=
  flat_map (λ e, match e with ServiceCall r => [r] | _ => [] end) trace.

Definition navigations (trace : list Effect) : list string :=
  flat_map (λ e, match e with Navigate p => [p] | _ => [] end) trace.

Definition notices (trace : list Effect) : list (string * Severity) :=
  flat_map (λ e, match e with ShowNotification m s => [(m, s)] | _ => [] end)
    trace.

Definition payloadOf (r : Request) : gmap string JsValue :=
  match r with
  | UpdateCategory _ p => p
  | CreateCategory p => p
  end.

(** [<form onSubmit={handleSubmit(onSubmit)}>]: the field errors and the
    effects of one submission attempt. *)
Definition submitForm (service : Request → Outcome) (id : option string)
    (isActive : bool) (data : FormData.t) : gmap string string * list Effect :=
  let '(errors, result) := handleSubmit (onSubmit service id isActive) data in
  (errors, default [] result).

End RouteId.

(** [response?.status] *)
Definition statusOf (response : option (ApiResponse unit)) : option string :=
  resp_status <$> response.

(** The same category with its parent reference removed. *)
Definition withoutParent (c : CategoryResponse.t) : CategoryResponse.t :=
  CategoryResponse.mk (CategoryResponse.id c) (CategoryResponse.name c)
    (CategoryResponse.description c) None (CategoryResponse.status c)
    (CategoryResponse.createdBy c) (CategoryResponse.lastModifiedBy c)
    (CategoryResponse.createdAt c) (CategoryResponse.updatedAt c).

(** Sample data: the category "Shoes" (id 5) under a parent with id 2. *)
Definition apparel : CategoryResponse.t :=
  CategoryResponse.mk (Num 2) "Apparel" "Clothing and accessories" None ACTIVE
    (Some "admin") None (Some "2024-01-01T00:00:00Z") None.

Definition shoes : CategoryResponse.t :=
  CategoryResponse.mk (Num 5) "Shoes" "Footwear" (Some apparel) ACTIVE
    (Some "admin") None (Some "2024-01-02T00:00:00Z") None.

(** A parent whose id is 0, and "Shoes" placed under it. *)
Definition rootCategory : CategoryResponse.t :=
  CategoryResponse.mk (Num 0) "Root" "All products" None ACTIVE
    None None None None.

Definition shoesUnderRoot : CategoryResponse.t :=
  CategoryResponse.mk (Num 5) "Shoes" "Footwear" (Some rootCategory) ACTIVE
    None None None None.

Definition sampleCategories : list CategorySummary :=
  [mkSummary (Num 1) "Electronics"; mkSummary (Num 2) "Apparel";
   mkSummary (Num 5) "Shoes"; mkSummary (Num 7) "Toys"].

(** A stand-in for the builtin, for the examples only: it gives what
    [parseInt] gives on the route ids the examples use, "5", "0" and "new",
    and is not meant for any other input. *)
Definition sampleParseInt (s : string) : number :=
  if String.eqb s "5" then Num 5
  else if String.eqb s "0" then Num 0
  else NaN.

(** A category service that answers every fetch with "Shoes". *)
Definition fetchShoes (_ : number) : option (ApiResponse CategoryResponse.t) :=
  Some (mkResponse "SUCCESS" None (Some shoes)).

End CategoryForm.

(** ** What the image upload widget renders *)

Module ImageUploadView.
Import Js ImageUpload.

(** One cell of the thumbnail grid: the image source, its alternative text
    and the index its delete button passes to [onRemove]. *)
Record Thumbnail : Type := mkThumbnail {
  thumb_src : string;
  thumb_alt : string;
  thumb_remove : nat
}.

(** The grid, and whether the "No images uploaded yet" line is shown. *)
Record View : Type := mkView {
  thumbnails : list Thumbnail;
  emptyNotice : bool
}.

Section Render.
Variable API_BASE_URL : string.
Variable getToken : option string.

(** [images.map((image, index) => ...)] and [images.length === 0 && ...] *)
Definition render (images : list string) : View :=
  {| thumbnails :=
       imap (λ index image,
               mkThumbnail (prepareImageUrl API_BASE_URL getToken image)
                 ("Product image " +:+ pretty (index + 1)%nat)
                 index)
         images;
     emptyNotice := Nat.eqb (length images) 0 |}.
End Render.

End ImageUploadView.

(** ** What the category form and its page render *)

Module CategoryFormView.
Import Js CategoryForm.

(** The value shown by the parent [Select]: [field.value || ''], with
    [None] for the empty string of the "None" entry. *)
Definition selectValue (v : ParentId) : option number :=
  match v with
  | PidNumber n => if truthy_number n then Some n else None
  | _ => None
  end.

(** The [onChange] of the parent [Select]:
    [e.target.value === '' ? null : Number(e.target.value)].
    The entries carry the empty string or a category id, a number, which
    [Number] returns as it is. *)
Definition onSelectChange (target : option number) : ParentId :=
  match target with
  | None => PidNull
  | Some n => PidNumber n
  end.

(** Heading of the form. *)
Definition formTitle (id : option string) : string :=
  if isEditMode id then "Edit Category" else "Create New Category".

(** Label of the submit button. *)
Definition submitLabel (id : option string) : string :=
  if isEditMode id then "Update Category" else "Create Category".

End CategoryFormView.

Module CategoryEditPage.
Import Js.

(** [!id] on the route parameter. *)
Definition isNewCategory (id : option string) : bool :=
  match truthy id with
  | Some _ => false
  | None => true
  end.

(** Heading of the page. *)
Definition pageTitle (id : option string) : string :=
  if isNewCategory id then "Add New Category"
  else "Edit Category #" +:+ default "" id.

End CategoryEditPage.

(** * Properties *)

(** ** Facts about the string primitives *)

Module JsFacts.
Import Js.

Lemma app_cons (a : ascii) (s1 s2 : string) :
  String a s1 +:+ s2 = String a (s1 +:+ s2).
Proof. reflexivity. Qed.

Lemma occurrences_app (c : ascii) (s1 s2 : string) :
  occurrences c (s1 +:+ s2) = (occurrences c s1 + occurrences c s2)%nat.
Proof.
  induction s1 as [|a s1 IH]; [reflexivity|].
  rewrite app_cons. cbn [occurrences]. rewrite IH. lia.
Qed.

Lemma includes_char_occurs (c : ascii) (s : string) :
  includes s (String c "") = true → (1 ≤ occurrences c s)%nat.
Proof.
  induction s as [|a s IH]; cbn [includes occurrences String.prefix].
  - discriminate.
  - destruct (ascii_dec c a) as [->|Hne].
    + rewrite Ascii.eqb_refl. lia.
    + intros H. apply orb_true_iff in H as [H|H]; [discriminate|].
      specialize (IH H). lia.
Qed.

Lemma truthy_Some (t : string) : t ≠ "" → truthy (Some t) = Some t.
Proof. destruct t; [congruence | reflexivity]. Qed.

Lemma truthy_nonempty (v : option string) (t : string) :
  truthy v = Some t → v = Some t ∧ t ≠ "".
Proof. destruct v as [[|a s]|]; cbn; intros H; by simplify_eq. Qed.

End JsFacts.

(** ** Image upload widget *)

Module ImageUploadProofs.
Import Js JsFacts ImageUpload.

(** *** The file-change handler *)

Lemma size_check (z : Z) : (5 * 1024 * 1024 <? z) = negb (z <=? 5242880).
Proof. change (5 * 1024 * 1024) with 5242880. apply Z.ltb_antisym. Qed.

Lemma processFile_uploaded (f : File) :
  uploaded (processFile f) = if acceptable f then [f] else [].
Proof.
  unfold processFile, acceptable. rewrite size_check.
  destruct (file_size f <=? 5242880); cbn; [|reflexivity].
  by destruct (startsWith (file_type f) "image/").
Qed.

Lemma processFile_notices (f : File) :
  notices (processFile f) = if acceptable f then [] else [rejection f].
Proof.
  unfold processFile, acceptable, rejection.
  rewrite size_check. change (5242880 <? file_size f)
    with (5 * 1024 * 1024 <? file_size f). rewrite size_check.
  destruct (file_size f <=? 5242880); cbn; [|reflexivity].
  by destruct (startsWith (file_type f) "image/").
Qed.

Lemma uploaded_forEach (fs : list File) :
  uploaded (flat_map processFile fs) = List.filter acceptable fs.
Proof.
  induction fs as [|f fs IH]; [reflexivity|].
  cbn [flat_map List.filter]. unfold uploaded in *.
  rewrite flat_map_app, IH.
  fold (uploaded (processFile f)). rewrite processFile_uploaded.
  by destruct (acceptable f).
Qed.

Lemma notices_forEach (fs : list File) :
  notices (flat_map processFile fs)
  = rejection <$> List.filter (λ f, negb (acceptable f)) fs.
Proof.
  induction fs as [|f fs IH]; [reflexivity|].
  cbn [flat_map List.filter]. unfold notices in *.
  rewrite flat_map_app, IH.
  fold (notices (processFile f)). rewrite processFile_notices.
  by destruct (acceptable f).
Qed.

Lemma uploaded_reset (tr : list Effect) (refAttached : bool) :
  uploaded (tr ++ (if refAttached then [ResetInputValue] else []))
  = uploaded tr.
Proof.
  unfold uploaded. rewrite flat_map_app.
  destruct refAttached; cbn; by rewrite app_nil_r.
Qed.

Lemma notices_reset (tr : list Effect) (refAttached : bool) :
  notices (tr ++ (if refAttached then [ResetInputValue] else []))
  = notices tr.
Proof.
  unfold notices. rewrite flat_map_app.
  destruct refAttached; cbn; by rewrite app_nil_r.
Qed.

Lemma elem_of_uploaded (tr : list Effect) (f : File) :
  OnUpload f ∈ tr ↔ f ∈ uploaded tr.
Proof.
  unfold uploaded. rewrite !list_elem_of_In, in_flat_map. split.
  - intros H. exists (OnUpload f). split; [done | by left].
  - intros (e & He & Hf). destruct e; cbn in Hf; try done.
    by destruct Hf as [->|[]].
Qed.

Lemma elem_of_filter_bool {A} (p : A → bool) (l : list A) (x : A) :
  x ∈ List.filter p l ↔ x ∈ l ∧ p x = true.
Proof. rewrite !list_elem_of_In. apply filter_In. Qed.

(** C1. Whatever the selection, the upload callback receives exactly the
    files of at most 5,242,880 bytes whose type starts with "image/", each
    once and in selection order; every other file gets an error
    notification instead and is never passed to the callback. The handler
    is a total function: it has no throwing path. *)
Theorem handleFileChange_uploads_exactly_valid
    (files : option (list File)) (refAttached : bool) :
  let trace := handleFileChange files refAttached in
  uploaded trace = List.filter acceptable (selection files)
  ∧ notices trace
    = rejection <$> List.filter (λ f, negb (acceptable f)) (selection files)
  ∧ ∀ f, f ∈ selection files → acceptable f = false →
      (OnUpload f ∉ trace)
      ∧ rejection f ∈ notices trace
      ∧ (rejection f).2 = SevError.
Proof.
  intros trace.
  assert (Hu : uploaded trace = List.filter acceptable (selection files)).
  { subst trace. destruct files as [[|f fs]|]; try reflexivity.
    unfold handleFileChange, selection. cbn [length Nat.ltb Nat.leb default].
    by rewrite uploaded_reset, uploaded_forEach. }
  assert (Hn : notices trace
    = rejection <$> List.filter (λ f, negb (acceptable f)) (selection files)).
  { subst trace. destruct files as [[|f fs]|]; try reflexivity.
    unfold handleFileChange, selection. cbn [length Nat.ltb Nat.leb default].
    by rewrite notices_reset, notices_forEach. }
  split; [done|]. split; [done|].
  intros f Hin Hrej. repeat split.
  - rewrite elem_of_uploaded, Hu, elem_of_filter_bool. intros [_ ?]. congruence.
  - rewrite Hn. apply list_elem_of_fmap. exists f. split; [done|].
    apply elem_of_filter_bool. split; [done|]. rewrite Hrej. reflexivity.
  - unfold rejection. by destruct (5242880 <? file_size f).
Qed.

Lemma handleFileChange_uploads_exactly_valid_witness :
  uploaded (handleFileChange (Some sampleSelection) true)
  = [ mkFile "first.png" 5242880 "image/png";
      mkFile "second.gif" 100 "image/gif" ]
  ∧ (OnUpload (mkFile "notes.txt" 12 "text/plain")
      ∉ handleFileChange (Some sampleSelection) true)
  ∧ ("File notes.txt is not an image.", SevError)
      ∈ notices (handleFileChange (Some sampleSelection) true).
Proof.
  destruct (handleFileChange_uploads_exactly_valid (Some sampleSelection) true)
    as (Hu & _ & Hrej).
  split; [exact Hu|].
  destruct (Hrej (mkFile "notes.txt" 12 "text/plain")) as (H1 & H2 & _).
  - do 2 apply list_elem_of_further. apply list_elem_of_here.
  - reflexivity.
  - split; [exact H1 | exact H2].
Defined.

(** C2, counterexample. The list [ALLOWED_IMAGE_TYPES] is not what the
    handler accepts: a small file of type "image/bmp", which is not in the
    list, is passed to the upload callback and no notification is shown. *)
Theorem handleFileChange_ignores_allow_list :
  let bmp := mkFile "scan.bmp" 1024 "image/bmp" in
  (file_type bmp ∉ ALLOWED_IMAGE_TYPES)
  ∧ file_size bmp ≤ MAX_FILE_SIZE
  ∧ handleFileChange (Some [bmp]) true = [OnUpload bmp; ResetInputValue].
Proof.
  cbn zeta. split; [|split].
  - unfold ALLOWED_IMAGE_TYPES. cbn. rewrite !elem_of_cons, elem_of_nil.
    intros H. repeat destruct H as [H|H]; done.
  - by vm_compute.
  - reflexivity.
Qed.

(** Every listed type passes the type check of the handler. *)
Lemma allowed_types_are_images (ty : string) :
  ty ∈ ALLOWED_IMAGE_TYPES → startsWith ty "image/" = true.
Proof.
  unfold ALLOWED_IMAGE_TYPES. rewrite !elem_of_cons, elem_of_nil.
  intros H. repeat destruct H as [H|H]; by subst.
Qed.

(** A file of a listed type within the size limit is uploaded. *)
Lemma allowed_type_is_uploaded (f : File) :
  file_type f ∈ ALLOWED_IMAGE_TYPES → file_size f ≤ MAX_FILE_SIZE →
  processFile f = [OnUpload f].
Proof.
  intros Hty Hsize. unfold processFile.
  rewrite size_check, (allowed_types_are_images _ Hty).
  unfold MAX_FILE_SIZE in Hsize. change (5 * 1024 * 1024) with 5242880 in Hsize.
  apply Z.leb_le in Hsize. rewrite Hsize. reflexivity.
Qed.

Lemma handleFileChange_observed (files : option (list File))
    (refAttached : bool) :
  uploaded (handleFileChange files refAttached)
  = List.filter acceptable (selection files)
  ∧ notices (handleFileChange files refAttached)
    = rejection <$> List.filter (λ f, negb (acceptable f)) (selection files).
Proof.
  destruct files as [[|f fs]|]; try by split.
  unfold handleFileChange, selection. cbn [length Nat.ltb Nat.leb default].
  by rewrite uploaded_reset, uploaded_forEach, notices_reset, notices_forEach.
Qed.

Lemma acceptable_within_limit (f : File) :
  file_size f ≤ MAX_FILE_SIZE →
  acceptable f = startsWith (file_type f) "image/"
  ∧ rejection f = ("File " +:+ file_name f +:+ " is not an image.", SevError).
Proof.
  unfold MAX_FILE_SIZE, acceptable, rejection.
  change (5 * 1024 * 1024) with 5242880. intros Hsize.
  rewrite (proj2 (Z.leb_le _ _) Hsize), (proj2 (Z.ltb_ge _ _) Hsize).
  by split.
Qed.

(** C2. What the handler accepts on type is the prefix "image/", not the
    list: a selected file within the size limit is passed to the upload
    callback exactly when its type starts with "image/". So every type of
    [ALLOWED_IMAGE_TYPES] is accepted, and a file whose type does not start
    with "image/" is rejected with the "not an image" notice. *)
Theorem handleFileChange_type_check_is_prefix
    (files : option (list File)) (refAttached : bool) (f : File) :
  f ∈ selection files →
  file_size f ≤ MAX_FILE_SIZE →
  let trace := handleFileChange files refAttached in
  (OnUpload f ∈ trace ↔ startsWith (file_type f) "image/" = true)
  ∧ (file_type f ∈ ALLOWED_IMAGE_TYPES → OnUpload f ∈ trace)
  ∧ (startsWith (file_type f) "image/" = false →
       (OnUpload f ∉ trace)
       ∧ ("File " +:+ file_name f +:+ " is not an image.", SevError)
           ∈ notices trace).
Proof.
  intros Hin Hsize trace. subst trace.
  destruct (handleFileChange_observed files refAttached) as [Hu Hn].
  destruct (acceptable_within_limit f Hsize) as [Hacc Hrej].
  assert (Hiff : OnUpload f ∈ handleFileChange files refAttached
                 ↔ startsWith (file_type f) "image/" = true).
  { rewrite elem_of_uploaded, Hu, elem_of_filter_bool, Hacc. tauto. }
  split_and!; [done| |].
  - intros Hty. apply Hiff. by apply allowed_types_are_images.
  - intros Hty. split.
    + rewrite Hiff, Hty. discriminate.
    + rewrite Hn, <- Hrej. apply list_elem_of_fmap. exists f.
      split; [done|]. apply elem_of_filter_bool. split; [done|].
      rewrite Hacc, Hty. reflexivity.
Qed.

Lemma handleFileChange_type_check_is_prefix_witness :
  OnUpload (mkFile "scan.bmp" 1024 "image/bmp")
    ∈ handleFileChange
        (Some [mkFile "notes.txt" 12 "text/plain";
               mkFile "scan.bmp" 1024 "image/bmp"]) true
  ∧ ("File notes.txt is not an image.", SevError)
      ∈ notices
          (handleFileChange
             (Some [mkFile "notes.txt" 12 "text/plain";
                    mkFile "scan.bmp" 1024 "image/bmp"]) true).
Proof.
  split.
  - destruct (handleFileChange_type_check_is_prefix
                (Some [mkFile "notes.txt" 12 "text/plain";
                       mkFile "scan.bmp" 1024 "image/bmp"]) true
                (mkFile "scan.bmp" 1024 "image/bmp"))
      as ([_ Hupload] & _ & _).
    + apply list_elem_of_further, list_elem_of_here.
    + discriminate.
    + apply Hupload. reflexivity.
  - destruct (handleFileChange_type_check_is_prefix
                (Some [mkFile "notes.txt" 12 "text/plain";
                       mkFile "scan.bmp" 1024 "image/bmp"]) true
                (mkFile "notes.txt" 12 "text/plain"))
      as (_ & _ & Hreject).
    + apply list_elem_of_here.
    + discriminate.
    + destruct (Hreject eq_refl) as [_ Hnotice]. exact Hnotice.
Defined.

(** *** The URL helper *)

Lemma prepareImageUrl_absolute (base : string) (token : option string)
    (url : string) :
  isAbsolute url = true →
  prepareImageUrl base token url
  = if includes url base then
      match truthy token with
      | Some t =>
          url +:+ (if includes url "?" then "&" else "?")
          +:+ "auth_token=" +:+ t
      | None => url
      end
    else url.
Proof. unfold isAbsolute, prepareImageUrl. by intros ->. Qed.

Lemma prepareImageUrl_relative (base : string) (token : option string)
    (url : string) :
  isAbsolute url = false →
  prepareImageUrl base token url
  = let normalizedUrl :=
      if startsWith url "/" then base +:+ url else base +:+ "/" +:+ url in
    match truthy token with
    | Some t => normalizedUrl +:+ "?auth_token=" +:+ t
    | None => normalizedUrl
    end.
Proof. unfold isAbsolute, prepareImageUrl. by intros ->. Qed.

(** C3. With base URL "https://api.x" and token "T", the relative path
    "/img/a.png" becomes "https://api.x/img/a.png?auth_token=T", and the
    absolute URL "https://cdn.y/a.png", which does not contain the base,
    is returned as it is. *)
Theorem prepareImageUrl_spec_examples :
  prepareImageUrl "https://api.x" (Some "T") "/img/a.png"
  = "https://api.x/img/a.png?auth_token=T"
  ∧ includes "https://cdn.y/a.png" "https://api.x" = false
  ∧ prepareImageUrl "https://api.x" (Some "T") "https://cdn.y/a.png"
    = "https://cdn.y/a.png".
Proof. repeat split; reflexivity. Qed.

(** C8. An absolute URL that contains the base URL anywhere gets the token
    appended whenever there is a (non-empty) token: with "&" if the URL
    already has a "?", with "?" otherwise. Only containment is tested. *)
Theorem prepareImageUrl_token_on_containment
    (base : string) (token : option string) (t url : string) :
  isAbsolute url = true →
  includes url base = true →
  truthy token = Some t →
  prepareImageUrl base token url
  = url +:+ (if includes url "?" then "&" else "?") +:+ "auth_token=" +:+ t.
Proof.
  intros Habs Hin Htok.
  rewrite prepareImageUrl_absolute by done. by rewrite Hin, Htok.
Qed.

(** A foreign URL that only embeds the base in its query string. *)
Lemma prepareImageUrl_token_on_containment_witness :
  startsWith "https://evil.y/r?next=https://api.x/img" "https://api.x" = false
  ∧ prepareImageUrl "https://api.x" (Some "T")
      "https://evil.y/r?next=https://api.x/img"
    = "https://evil.y/r?next=https://api.x/img&auth_token=T".
Proof.
  split; [reflexivity|].
  apply (prepareImageUrl_token_on_containment "https://api.x" (Some "T") "T"
           "https://evil.y/r?next=https://api.x/img"); reflexivity.
Defined.

(** C9. A relative URL that already has a query string still gets
    "?auth_token=<token>" appended, so the result has at least two "?";
    the absolute branch, in contrast, appends with "&" when the URL
    already has a "?". *)
Theorem prepareImageUrl_relative_second_query_mark
    (base : string) (token : option string) (t url : string) :
  isAbsolute url = false →
  includes url "?" = true →
  truthy token = Some t →
  let result := prepareImageUrl base token url in
  result
  = (if startsWith url "/" then base +:+ url else base +:+ "/" +:+ url)
    +:+ "?auth_token=" +:+ t
  ∧ (2 ≤ occurrences "?" result)%nat
  ∧ ∀ absUrl, isAbsolute absUrl = true → includes absUrl base = true →
      includes absUrl "?" = true →
      prepareImageUrl base token absUrl = absUrl +:+ "&auth_token=" +:+ t.
Proof.
  intros Hrel Hq Htok result.
  assert (Hres : result
    = (if startsWith url "/" then base +:+ url else base +:+ "/" +:+ url)
      +:+ "?auth_token=" +:+ t).
  { subst result. rewrite prepareImageUrl_relative by done.
    cbn zeta. by rewrite Htok. }
  split; [done|]. split.
  - rewrite Hres. apply includes_char_occurs in Hq.
    destruct (startsWith url "/"); rewrite !occurrences_app;
      change (occurrences "?" "?auth_token=") with 1%nat; lia.
  - intros absUrl Habs Hin HabsQ.
    rewrite prepareImageUrl_absolute by done. by rewrite Hin, Htok, HabsQ.
Qed.

Lemma prepareImageUrl_relative_second_query_mark_witness :
  prepareImageUrl "https://api.x" (Some "T") "/img/a.png?w=100"
  = "https://api.x/img/a.png?w=100?auth_token=T"
  ∧ prepareImageUrl "https://api.x" (Some "T") "https://api.x/img/a.png?w=100"
    = "https://api.x/img/a.png?w=100&auth_token=T".
Proof.
  destruct (prepareImageUrl_relative_second_query_mark "https://api.x"
              (Some "T") "T" "/img/a.png?w=100")
    as (Hres & _ & Habs); [reflexivity..|].
  split; [exact Hres|].
  apply Habs; reflexivity.
Defined.

End ImageUploadProofs.

(** ** Category form *)

Module CategoryFormProofs.
Import Js JsFacts CategoryForm.

(** *** The submit handler *)

Lemma onSubmit_serviceCalls (parseInt : string → number)
    (service : Request → Outcome)
    (id : option string) (isActive : bool) (data : FormData.t) :
  serviceCalls (onSubmit parseInt service id isActive data)
  = [submitRequest parseInt id isActive data].
Proof.
  unfold onSubmit. cbn.
  destruct (service _) as [response|error]; [|reflexivity].
  by destruct (isSuccess response).
Qed.

Lemma payloadOf_submitRequest (parseInt : string → number)
    (id : option string) (isActive : bool)
    (data : FormData.t) :
  payloadOf (submitRequest parseInt id isActive data) = requestData isActive data.
Proof. unfold submitRequest. by destruct (truthy id). Qed.

(** A parent id that is set does travel in the payload. *)
Lemma requestData_parent_number (isActive : bool) (data : FormData.t)
    (n : number) :
  FormData.parentCategoryId data = PidNumber n →
  requestData isActive data !! "parentCategoryId" = Some (JNumber n).
Proof.
  intros H. unfold requestData, formData. rewrite H.
  by simplify_map_eq.
Qed.

(** C4. When parentCategoryId is null, the one request sent by the submit
    handler has a payload with the keys name, description and status only:
    there is no parentCategoryId key, and status comes from the toggle. *)
Theorem onSubmit_omits_null_parent (parseInt : string → number)
    (service : Request → Outcome)
    (id : option string) (isActive : bool) (data : FormData.t) :
  FormData.parentCategoryId data = PidNull →
  ∃ request,
    serviceCalls (onSubmit parseInt service id isActive data) = [request]
    ∧ payloadOf request !! "parentCategoryId" = None
    ∧ payloadOf request !! "name" = Some (JString (FormData.name data))
    ∧ payloadOf request !! "description"
      = Some (JString (FormData.description data))
    ∧ payloadOf request !! "status"
      = Some (JString (if isActive then "ACTIVE" else "INACTIVE"))
    ∧ dom (payloadOf request) = {[ "name"; "description"; "status" ]}.
Proof.
  intros Hnull. exists (submitRequest parseInt id isActive data).
  split; [apply onSubmit_serviceCalls|].
  rewrite payloadOf_submitRequest. unfold requestData, formData.
  rewrite Hnull. split_and!; [by simplify_map_eq..|].
  rewrite !dom_insert_L, dom_empty_L. set_solver.
Qed.

Lemma onSubmit_omits_null_parent_witness :
  ∃ request,
    serviceCalls
      (onSubmit sampleParseInt (λ _, Resolved None) None false
         (FormData.mk "Shoes" "Footwear" PidNull)) = [request]
    ∧ payloadOf request !! "parentCategoryId" = None
    ∧ payloadOf request !! "status" = Some (JString "INACTIVE").
Proof.
  destruct (onSubmit_omits_null_parent sampleParseInt (λ _, Resolved None) None false
              (FormData.mk "Shoes" "Footwear" PidNull) eq_refl)
    as (request & Hcalls & Hparent & _ & _ & Hstatus & _).
  exists request. split; [exact Hcalls|].
  split; [exact Hparent | exact Hstatus].
Defined.

Lemma isSuccess_statusOf (response : option (ApiResponse unit)) :
  statusOf response = Some "SUCCESS" → isSuccess response = true.
Proof.
  destruct response as [r|]; cbn; [|done].
  intros [= ->]. reflexivity.
Qed.

Lemma isSuccess_other (response : option (ApiResponse unit)) :
  statusOf response ≠ Some "SUCCESS" → isSuccess response = false.
Proof.
  destruct response as [r|]; cbn; [|done].
  intros H. apply String.eqb_neq. congruence.
Qed.

(** A thrown value that is not an [Error] is reported as "Unknown error". *)
Lemma onSubmit_thrown_other (parseInt : string → number)
    (service : Request → Outcome)
    (id : option string) (isActive : bool) (data : FormData.t) :
  service (submitRequest parseInt id isActive data) = Rejected ThrownOther →
  notices (onSubmit parseInt service id isActive data)
  = [("Saving category...", SevInfo); ("Error: Unknown error", SevError)].
Proof. unfold onSubmit. by intros ->. Qed.

(** C7. The submit handler makes one service call. A "SUCCESS" response
    gives a success notification and a navigation to the category list;
    any other response gives one error notification with the server's
    message, or "Unknown error" without one, and no navigation; a thrown
    error gives an error notification with the error's message. *)
Theorem onSubmit_response_handling (parseInt : string → number)
    (service : Request → Outcome)
    (id : option string) (isActive : bool) (data : FormData.t) :
  let request := submitRequest parseInt id isActive data in
  let trace := onSubmit parseInt service id isActive data in
  serviceCalls trace = [request]
  ∧ (∀ response, service request = Resolved response →
       statusOf response = Some "SUCCESS" →
       trace = [ShowNotification "Saving category..." SevInfo;
                ServiceCall request;
                ShowNotification
                  (if isEditMode id then "Category updated successfully"
                   else "Category created successfully") SevSuccess;
                Navigate "/categories"])
  ∧ (∀ response, service request = Resolved response →
       statusOf response ≠ Some "SUCCESS" →
       trace = [ShowNotification "Saving category..." SevInfo;
                ServiceCall request;
                ShowNotification
                  ("Failed to " +:+ (if isEditMode id then "update" else "create")
                   +:+ " category: "
                   +:+ match truthy (response ≫= resp_message) with
                       | Some m => m
                       | None => "Unknown error"
                       end) SevError]
       ∧ navigations trace = [])
  ∧ (∀ m, service request = Rejected (ThrownError m) →
       trace = [ShowNotification "Saving category..." SevInfo;
                ServiceCall request;
                ConsoleError (ThrownError m);
                ShowNotification ("Error: " +:+ m) SevError]
       ∧ navigations trace = []).
Proof.
  intros request trace. split; [apply onSubmit_serviceCalls|].
  subst trace. unfold onSubmit. fold request. split_and!.
  - intros response -> Hs. apply isSuccess_statusOf in Hs.
    by rewrite Hs.
  - intros response -> Hs. apply isSuccess_other in Hs.
    by rewrite Hs.
  - by intros m ->.
Qed.

Lemma onSubmit_response_handling_witness :
  onSubmit sampleParseInt (λ _, Resolved (Some (mkResponse "SUCCESS" None None)))
    (Some "5") true (FormData.mk "Shoes" "Footwear" PidNull)
  = [ShowNotification "Saving category..." SevInfo;
     ServiceCall
       (submitRequest sampleParseInt (Some "5") true (FormData.mk "Shoes" "Footwear" PidNull));
     ShowNotification "Category updated successfully" SevSuccess;
     Navigate "/categories"]
  ∧ notices
      (onSubmit sampleParseInt
         (λ _, Resolved (Some (mkResponse "ERROR" (Some "Name taken") None)))
         None true (FormData.mk "Shoes" "Footwear" PidNull))
    = [("Saving category...", SevInfo);
       ("Failed to create category: Name taken", SevError)]
  ∧ notices
      (onSubmit sampleParseInt (λ _, Rejected (ThrownError "Network down"))
         None true (FormData.mk "Shoes" "Footwear" PidNull))
    = [("Saving category...", SevInfo); ("Error: Network down", SevError)].
Proof.
  split_and!.
  - destruct (onSubmit_response_handling sampleParseInt
                (λ _, Resolved (Some (mkResponse "SUCCESS" None None)))
                (Some "5") true (FormData.mk "Shoes" "Footwear" PidNull))
      as (_ & Hok & _).
    exact (Hok _ eq_refl eq_refl).
  - destruct (onSubmit_response_handling sampleParseInt
                (λ _, Resolved
                        (Some (mkResponse "ERROR" (Some "Name taken") None)))
                None true (FormData.mk "Shoes" "Footwear" PidNull))
      as (_ & _ & Hfail & _).
    destruct (Hfail _ eq_refl) as [Htrace _]; [discriminate|].
    rewrite Htrace. reflexivity.
  - destruct (onSubmit_response_handling sampleParseInt
                (λ _, Rejected (ThrownError "Network down"))
                None true (FormData.mk "Shoes" "Footwear" PidNull))
      as (_ & _ & _ & Hthrow).
    destruct (Hthrow _ eq_refl) as [Htrace _].
    rewrite Htrace. reflexivity.
Defined.

(** *** Schema validation *)

Lemma schemaErrors_name (data : FormData.t) :
  FormData.name data = "" →
  schemaErrors data !! "name" = Some "Category name is required".
Proof.
  intros H. unfold schemaErrors, schema. cbn [foldr]. rewrite H.
  cbn [required fieldError].
  apply lookup_union_Some_l, lookup_singleton_eq.
Qed.

Lemma schemaErrors_description (data : FormData.t) :
  FormData.description data = "" →
  schemaErrors data !! "description" = Some "Description is required".
Proof.
  intros H. unfold schemaErrors, schema. cbn [foldr]. rewrite H.
  cbn [required fieldError]. rewrite (right_id_L ∅ _).
  rewrite lookup_union_r; [apply lookup_singleton_eq|].
  destruct (required _ (FormData.name data)); cbn [fieldError];
    [by rewrite lookup_singleton_ne | apply lookup_empty].
Qed.

Lemma schemaErrors_nonempty (data : FormData.t) :
  FormData.name data = "" ∨ FormData.description data = "" →
  schemaErrors data ≠ ∅.
Proof.
  intros [H|H] Hempty.
  - apply schemaErrors_name in H. by rewrite Hempty in H.
  - apply schemaErrors_description in H. by rewrite Hempty in H.
Qed.

(** Valid values do reach the callback. *)
Lemma handleSubmit_valid {A : Type} (onValid : FormData.t → A)
    (data : FormData.t) :
  FormData.name data ≠ "" → FormData.description data ≠ "" →
  handleSubmit onValid data = (∅, Some (onValid (schemaCast data))).
Proof.
  intros Hn Hd. unfold handleSubmit, schemaErrors, schema. cbn [foldr].
  destruct (FormData.name data); [done|].
  destruct (FormData.description data); [done|].
  cbn [required fieldError].
  by rewrite decide_True by by rewrite !(left_id_L ∅ _).
Qed.

(** C6. A submission whose name or description is the empty string yields
    the error message of each empty field, the submit handler is not
    invoked, and the attempt has no effect at all: no service call. *)
Theorem submit_with_empty_field_is_blocked (parseInt : string → number)
    (service : Request → Outcome)
    (id : option string) (isActive : bool) (data : FormData.t) :
  FormData.name data = "" ∨ FormData.description data = "" →
  let attempt := handleSubmit (onSubmit parseInt service id isActive) data in
  (FormData.name data = "" →
     attempt.1 !! "name" = Some "Category name is required")
  ∧ (FormData.description data = "" →
     attempt.1 !! "description" = Some "Description is required")
  ∧ attempt.1 ≠ ∅
  ∧ attempt.2 = None
  ∧ (submitForm parseInt service id isActive data).2 = []
  ∧ serviceCalls (submitForm parseInt service id isActive data).2 = [].
Proof.
  intros Hempty attempt.
  assert (Hattempt : attempt = (schemaErrors data, None)).
  { subst attempt. unfold handleSubmit.
    by rewrite decide_False by by apply schemaErrors_nonempty. }
  unfold submitForm. fold attempt. rewrite Hattempt. cbn [fst snd default].
  split_and!; try done.
  - apply schemaErrors_name.
  - apply schemaErrors_description.
  - by apply schemaErrors_nonempty.
Qed.

Lemma submit_with_empty_field_is_blocked_witness :
  (handleSubmit (onSubmit sampleParseInt (λ _, Resolved None) None true)
     (FormData.mk "" "Footwear" PidNull)).1 !! "name"
  = Some "Category name is required"
  ∧ submitForm sampleParseInt (λ _, Resolved None) None true
      (FormData.mk "" "Footwear" PidNull)
    = ({[ "name" := "Category name is required" ]}, []).
Proof.
  destruct (submit_with_empty_field_is_blocked sampleParseInt (λ _, Resolved None) None true
              (FormData.mk "" "Footwear" PidNull) (or_introl eq_refl))
    as (Hname & _).
  split; [exact (Hname eq_refl) | reflexivity].
Defined.

(** *** Edit-mode load and the parent dropdown *)

Lemma loadCategory_success (parseInt : string → number)
    (fetchCategory : number → option (ApiResponse CategoryResponse.t))
    (id : option string) (i : string) (st : State)
    (message : option string) (category : CategoryResponse.t) :
  truthy id = Some i →
  fetchCategory (parseInt i)
  = Some (mkResponse "SUCCESS" message (Some category)) →
  values (loadCategory parseInt fetchCategory id st)
  = FormData.mk (CategoryResponse.name category)
      (CategoryResponse.description category)
      (parentIdOf (CategoryResponse.parentCategory category)).
Proof. unfold loadCategory. by intros -> ->. Qed.

Lemma isEditMode_truthy (id : option string) (i : string) :
  truthy id = Some i → isEditMode id = true ∧ or_else id "0" = i.
Proof. unfold isEditMode, or_else. by intros ->. Qed.

Lemma strict_neq_Num (a : number) (n : Z) :
  strict_neq a (Num n) = true ↔ a ≠ Num n.
Proof.
  destruct a as [|z|b]; cbn; [done| |done].
  rewrite negb_true_iff, Z.eqb_neq. split; congruence.
Qed.





(** C10. When the fetched category has a parent whose id is 0, the form
    gets parentCategoryId null: the loaded values are those of the same
    category without a parent. *)
Theorem loadCategory_parent_zero_is_null (parseInt : string → number)
    (fetchCategory : number → option (ApiResponse CategoryResponse.t))
    (id : option string) (i : string) (st : State)
    (message : option string) (category p : CategoryResponse.t) :
  truthy id = Some i →
  fetchCategory (parseInt i)
  = Some (mkResponse "SUCCESS" message (Some category)) →
  CategoryResponse.parentCategory category = Some p →
  CategoryResponse.id p = Num 0 →
  FormData.parentCategoryId (values (loadCategory parseInt fetchCategory id st)) = PidNull
  ∧ values (loadCategory parseInt fetchCategory id st)
    = values (loadCategory parseInt
                (λ _, Some (mkResponse "SUCCESS" message
                              (Some (withoutParent category))))
                id st).
Proof.
  intros Hid Hfetch Hp Hzero.
  rewrite (loadCategory_success _ _ _ _ _ _ _ Hid Hfetch).
  rewrite (loadCategory_success _ _ id i st message (withoutParent category) Hid)
    by done.
  rewrite Hp. cbn. by rewrite Hzero.
Qed.

Lemma loadCategory_parent_zero_is_null_witness :
  FormData.parentCategoryId
    (values
       (loadCategory sampleParseInt
          (λ _, Some (mkResponse "SUCCESS" None (Some shoesUnderRoot)))
          (Some "5") initialState))
  = PidNull.
Proof.
  exact (proj1 (loadCategory_parent_zero_is_null sampleParseInt
                  (λ _, Some (mkResponse "SUCCESS" None (Some shoesUnderRoot)))
                  (Some "5") "5" initialState None shoesUnderRoot rootCategory
                  eq_refl eq_refl eq_refl eq_refl)).
Defined.

End CategoryFormProofs.

(** * Further properties *)

(** ** More facts about strings *)

Module StringFacts.
Import Js JsFacts.

Lemma string_app_assoc (a b c : string) : (a +:+ b) +:+ c = a +:+ b +:+ c.
Proof.
  induction a as [|x a IH]; [reflexivity|].
  rewrite !app_cons. by rewrite IH.
Qed.

Lemma string_app_nil_r (s : string) : s +:+ "" = s.
Proof.
  induction s as [|x s IH]; [reflexivity|].
  rewrite app_cons. by rewrite IH.
Qed.

Lemma string_app_eq_self (s x : string) : s +:+ x = s → x = "".
Proof.
  intros H. apply (inj (String.app s)). by rewrite string_app_nil_r.
Qed.

Lemma startsWith_app (s t : string) : startsWith (s +:+ t) s = true.
Proof.
  unfold startsWith. induction s as [|x s IH]; [by destruct t|].
  rewrite app_cons. cbn [String.prefix].
  by destruct (ascii_dec x x).
Qed.

Lemma startsWith_char (c : ascii) (s : string) :
  startsWith s (String c "") = true → ∃ rest, s = String c rest.
Proof.
  unfold startsWith. destruct s as [|x s]; cbn [String.prefix]; [done|].
  destruct (ascii_dec c x) as [->|]; [|done]. by exists s.
Qed.

Lemma slash_is_relative (s : string) :
  startsWith (String "/" s) "http://" || startsWith (String "/" s) "https://"
  = false.
Proof. reflexivity. Qed.

End StringFacts.

(** ** Image upload widget: handler, URL helper and grid *)

Module ImageUploadExtra.
Import Js JsFacts StringFacts ImageUpload ImageUploadView ImageUploadProofs.

(** *** The file-change handler *)

Lemma processFile_single (f : File) :
  ∃ e, processFile f = [e] ∧ e ≠ ResetInputValue.
Proof.
  unfold processFile. destruct (_ <? _); [by eexists|].
  destruct (negb _); by eexists.
Qed.

Lemma forEach_no_reset (fs : list File) :
  length (flat_map processFile fs) = length fs
  ∧ ResetInputValue ∉ flat_map processFile fs.
Proof.
  induction fs as [|f fs [IHlen IHin]]; [split; [done | apply not_elem_of_nil]|].
  destruct (processFile_single f) as (e & He & Hne).
  cbn [flat_map]. rewrite He. cbn. split; [by rewrite IHlen|].
  rewrite elem_of_cons. intros [Heq|Hin]; [by apply Hne | by apply IHin].
Qed.

(** X1. Every selected file causes exactly one effect, an upload or a notice;
    after them the input is reset, once, exactly when the selection is not
    empty and the input element is attached. A missing or empty selection
    has no effect at all. *)
Theorem handleFileChange_one_effect_per_file_then_reset
    (files : option (list File)) (refAttached : bool) :
  ∃ body,
    length body = length (selection files)
    ∧ (ResetInputValue ∉ body)
    ∧ handleFileChange files refAttached
      = body ++ (if refAttached && negb (Nat.eqb (length (selection files)) 0)
                 then [ResetInputValue] else []).
Proof.
  destruct files as [[|f fs]|].
  - exists []. split_and!; [done | apply not_elem_of_nil |].
    cbn. by rewrite andb_false_r.
  - exists (flat_map processFile (f :: fs)).
    destruct (forEach_no_reset (f :: fs)) as [Hlen Hin].
    split_and!; [done..|].
    unfold handleFileChange, selection. cbn [length Nat.ltb Nat.leb default].
    cbn [Nat.eqb negb]. by rewrite andb_true_r.
  - exists []. split_and!; [done | apply not_elem_of_nil |].
    cbn. by rewrite andb_false_r.
Qed.

Lemma handleFileChange_uploaded (fs : list File) (refAttached : bool) :
  uploaded (handleFileChange (Some fs) refAttached) = List.filter acceptable fs.
Proof.
  destruct fs as [|f fs]; [reflexivity|].
  unfold handleFileChange. cbn [length Nat.ltb Nat.leb].
  by rewrite uploaded_reset, uploaded_forEach.
Qed.

Lemma handleFileChange_notices (fs : list File) (refAttached : bool) :
  notices (handleFileChange (Some fs) refAttached)
  = rejection <$> List.filter (λ f, negb (acceptable f)) fs.
Proof.
  destruct fs as [|f fs]; [reflexivity|].
  unfold handleFileChange. cbn [length Nat.ltb Nat.leb].
  by rewrite notices_reset, notices_forEach.
Qed.

(** X2. Files are judged one by one: what a selection uploads and reports is
    the concatenation of what its parts upload and report. There is no
    limit on the number of files or on their total size. *)
Theorem handleFileChange_selection_app
    (fs1 fs2 : list File) (refAttached : bool) :
  uploaded (handleFileChange (Some (fs1 ++ fs2)) refAttached)
  = uploaded (handleFileChange (Some fs1) refAttached)
    ++ uploaded (handleFileChange (Some fs2) refAttached)
  ∧ notices (handleFileChange (Some (fs1 ++ fs2)) refAttached)
    = notices (handleFileChange (Some fs1) refAttached)
      ++ notices (handleFileChange (Some fs2) refAttached).
Proof.
  rewrite !handleFileChange_uploaded, !handleFileChange_notices.
  by rewrite !List.filter_app, fmap_app.
Qed.

(** *** The URL helper *)

(** X3. The helper never rewrites the URL it is given: the result is that URL,
    verbatim, behind nothing (absolute URL) or the base with at most one
    added "/" (relative URL), and in front of nothing or the token query. *)
Theorem prepareImageUrl_keeps_url_verbatim
    (base : string) (token : option string) (url : string) :
  ∃ pre suf,
    prepareImageUrl base token url = pre +:+ url +:+ suf
    ∧ (if isAbsolute url then pre = ""
       else pre = base ∨ pre = base +:+ "/")
    ∧ (suf = ""
       ∨ ∃ t, truthy token = Some t
              ∧ (suf = "?auth_token=" +:+ t ∨ suf = "&auth_token=" +:+ t)).
Proof.
  destruct (isAbsolute url) eqn:Habs.
  - rewrite prepareImageUrl_absolute by done. exists "".
    destruct (includes url base), (truthy token) as [t|] eqn:Htok;
      try (exists ""; split_and!; [by rewrite string_app_nil_r | done | by left]).
    exists ((if includes url "?" then "&" else "?") +:+ "auth_token=" +:+ t).
    split_and!; [done..|]. right. exists t. split; [done|].
    destruct (includes url "?"); [by right | by left].
  - rewrite prepareImageUrl_relative by done. cbn zeta.
    destruct (startsWith url "/"), (truthy token) as [t|] eqn:Htok.
    + exists base, ("?auth_token=" +:+ t). split_and!; [|by left|].
      * by rewrite string_app_assoc.
      * right. exists t. split; [done | by left].
    + exists base, "". split_and!; [|by left..].
      by rewrite string_app_nil_r.
    + exists (base +:+ "/"), ("?auth_token=" +:+ t). split_and!; [|by right|].
      * by rewrite !string_app_assoc.
      * right. exists t. split; [done | by left].
    + exists (base +:+ "/"), "". split_and!; [|by right|by left].
      by rewrite string_app_nil_r, string_app_assoc.
Qed.

(** X4. An absolute URL comes back changed exactly when it contains the base
    URL and there is a non-empty token; a missing token and an empty one
    both leave it as it is. *)
Theorem prepareImageUrl_absolute_unchanged_iff
    (base : string) (token : option string) (url : string) :
  isAbsolute url = true →
  prepareImageUrl base token url = url
  ↔ includes url base = false ∨ truthy token = None.
Proof.
  intros Habs. rewrite prepareImageUrl_absolute by done.
  destruct (includes url base); [|by split; [left|]].
  destruct (truthy token) as [t|]; [|by split; [right|]].
  split; [|by intros [|]].
  intros H%string_app_eq_self. exfalso.
  destruct (includes url "?"); vm_compute in H; discriminate.
Qed.

Lemma prepareImageUrl_absolute_unchanged_iff_witness :
  prepareImageUrl "https://api.x" (Some "") "https://api.x/img/a.png"
  = "https://api.x/img/a.png"
  ∧ prepareImageUrl "https://api.x" (Some "T") "https://api.x/img/a.png"
    ≠ "https://api.x/img/a.png".
Proof.
  split.
  - apply (prepareImageUrl_absolute_unchanged_iff "https://api.x" (Some "")
             "https://api.x/img/a.png" eq_refl).
    right. reflexivity.
  - intros H.
    apply (prepareImageUrl_absolute_unchanged_iff "https://api.x" (Some "T")
             "https://api.x/img/a.png" eq_refl) in H.
    destruct H as [H|H]; discriminate H.
Defined.

(** X5. A relative URL resolves to the same result with and without its
    leading "/". *)
Theorem prepareImageUrl_leading_slash_optional
    (base : string) (token : option string) (url : string) :
  isAbsolute url = false →
  startsWith url "/" = false →
  prepareImageUrl base token ("/" +:+ url) = prepareImageUrl base token url.
Proof.
  intros Hrel Hslash.
  rewrite (prepareImageUrl_relative base token ("/" +:+ url))
    by apply slash_is_relative.
  rewrite (prepareImageUrl_relative base token url) by done.
  cbn zeta. by rewrite Hslash, (startsWith_app "/" url).
Qed.

Lemma prepareImageUrl_leading_slash_optional_witness :
  prepareImageUrl "https://api.x" (Some "T") "/img/a.png"
  = prepareImageUrl "https://api.x" (Some "T") "img/a.png".
Proof.
  exact (prepareImageUrl_leading_slash_optional "https://api.x" (Some "T")
           "img/a.png" eq_refl eq_refl).
Defined.

(** X6. The slash handling looks at the image URL only: when the base URL ends
    with "/", every relative URL is resolved with "//" at the join. *)
Theorem prepareImageUrl_base_trailing_slash
    (base : string) (token : option string) (url : string) :
  isAbsolute url = false →
  ∃ rest, prepareImageUrl (base +:+ "/") token url = base +:+ "//" +:+ rest.
Proof.
  intros Hrel. rewrite prepareImageUrl_relative by done. cbn zeta.
  assert (Hjoin : ∃ x,
    (if startsWith url "/" then (base +:+ "/") +:+ url
     else (base +:+ "/") +:+ "/" +:+ url) = base +:+ "//" +:+ x).
  { destruct (startsWith url "/") eqn:Hslash.
    - apply startsWith_char in Hslash as [u ->]. exists u.
      by rewrite string_app_assoc.
    - exists url. by rewrite string_app_assoc. }
  destruct Hjoin as [x ->].
  destruct (truthy token) as [t|]; [|by exists x].
  exists (x +:+ "?auth_token=" +:+ t). by rewrite !string_app_assoc.
Qed.

Lemma prepareImageUrl_base_trailing_slash_witness :
  ∃ rest, prepareImageUrl "https://api.x/" None "img/a.png"
          = "https://api.x//" +:+ rest.
Proof.
  exact (prepareImageUrl_base_trailing_slash "https://api.x" None "img/a.png"
           eq_refl).
Defined.

(** *** The thumbnail grid *)

(** X7. The grid has one cell per image, in order; the cell at position [k]
    shows the prepared URL of image [k] and its delete button passes [k],
    an index within the list; no two cells share their alternative text.
    The "no images" line is shown exactly for the empty list. *)
Theorem render_grid (base : string) (token : option string)
    (images : list string) :
  let view := render base token images in
  length (thumbnails view) = length images
  ∧ (emptyNotice view = true ↔ images = [])
  ∧ (∀ k cell, thumbnails view !! k = Some cell →
       thumb_remove cell = k
       ∧ (k < length images)%nat
       ∧ ∃ image, images !! k = Some image
                  ∧ thumb_src cell = prepareImageUrl base token image)
  ∧ (∀ j k cellj cellk,
       thumbnails view !! j = Some cellj →
       thumbnails view !! k = Some cellk →
       thumb_alt cellj = thumb_alt cellk → j = k).
Proof.
  cbn zeta. unfold render. cbn [thumbnails emptyNotice]. split_and!.
  - apply length_imap.
  - rewrite Nat.eqb_eq. apply length_zero_iff_nil.
  - intros k cell. rewrite list_lookup_imap.
    destruct (images !! k) as [image|] eqn:Hk; [|done].
    intros [= <-]. cbn. split_and!; [done | by eapply lookup_lt_Some |].
    by exists image.
  - intros j k cellj cellk. rewrite !list_lookup_imap.
    destruct (images !! j), (images !! k); try done.
    intros [= <-] [= <-]. cbn [thumb_alt].
    intros H%(inj (String.app _))%(inj pretty). lia.
Qed.

Lemma render_grid_witness :
  thumb_remove
    (mkThumbnail "https://api.x/b.png?auth_token=T" "Product image 2" 1)
  = 1%nat
  ∧ emptyNotice (render "https://api.x" (Some "T") []) = true.
Proof.
  destruct (render_grid "https://api.x" (Some "T") ["/a.png"; "/b.png"])
    as (_ & _ & Hcell & _).
  destruct (Hcell 1%nat
              (mkThumbnail "https://api.x/b.png?auth_token=T"
                 "Product image 2" 1) eq_refl)
    as (Hremove & _ & _).
  split; [exact Hremove|].
  apply (render_grid "https://api.x" (Some "T") []). reflexivity.
Defined.

End ImageUploadExtra.

(** ** Category form: load, validation, submission and controls *)

Module CategoryFormExtra.
Import Js JsFacts StringFacts CategoryForm CategoryFormView CategoryEditPage.
Import CategoryFormProofs.

(** *** Loading *)

(** X8. The state is left as it was when the form is in create mode, when the
    fetch gives no response, when the response is not a "SUCCESS" and when
    it carries no category. *)
Theorem loadCategory_failure_keeps_state (parseInt : string → number)
    (fetchCategory : number → option (ApiResponse CategoryResponse.t))
    (id : option string) (st : State) :
  (truthy id = None
   ∨ ∃ i, truthy id = Some i
          ∧ (fetchCategory (parseInt i) = None
             ∨ ∃ r, fetchCategory (parseInt i) = Some r
                    ∧ (resp_status r ≠ "SUCCESS" ∨ resp_data r = None))) →
  loadCategory parseInt fetchCategory id st = st.
Proof.
  unfold loadCategory, onCategoryFetched.
  intros [->|(i & -> & [->|(r & -> & Hr)])]; [done..|].
  destruct Hr as [Hstatus| ->].
  - apply String.eqb_neq in Hstatus. by rewrite Hstatus.
  - by destruct (String.eqb _ _).
Qed.

Lemma loadCategory_failure_keeps_state_witness :
  loadCategory sampleParseInt
    (λ _, Some (mkResponse "ERROR" (Some "Category not found") None))
    (Some "5") initialState
  = initialState.
Proof.
  apply loadCategory_failure_keeps_state.
  right. exists "5". split; [reflexivity|].
  right. eexists. split; [reflexivity|]. left. discriminate.
Defined.

Lemma loadCategory_isActive (parseInt : string → number)
    (fetchCategory : number → option (ApiResponse CategoryResponse.t))
    (id : option string) (i : string) (st : State)
    (message : option string) (category : CategoryResponse.t) :
  truthy id = Some i →
  fetchCategory (parseInt i)
  = Some (mkResponse "SUCCESS" message (Some category)) →
  isActive (loadCategory parseInt fetchCategory id st)
  = statusEqb (CategoryResponse.status category) ACTIVE.
Proof. unfold loadCategory. by intros -> ->. Qed.

Lemma transformParentId_parentIdOf (parent : option CategoryResponse.t) :
  transformParentId (parentIdOf parent) = parentIdOf parent.
Proof.
  destruct parent as [p|]; [|done]. unfold parentIdOf.
  destruct (truthy_number (CategoryResponse.id p)) eqn:Hp; [|done].
  by destruct (CategoryResponse.id p).
Qed.

(** *** Validation *)

Lemma submitForm_valid (parseInt : string → number)
    (service : Request → Outcome) (id : option string)
    (active : bool) (data : FormData.t) :
  FormData.name data ≠ "" → FormData.description data ≠ "" →
  submitForm parseInt service id active data
  = (∅, onSubmit parseInt service id active (schemaCast data)).
Proof.
  intros Hn Hd. unfold submitForm. by rewrite handleSubmit_valid.
Qed.

Lemma handleSubmit_invalid {A : Type} (onValid : FormData.t → A)
    (data : FormData.t) :
  FormData.name data = "" ∨ FormData.description data = "" →
  handleSubmit onValid data = (schemaErrors data, None).
Proof.
  intros H. unfold handleSubmit.
  by rewrite decide_False by by apply schemaErrors_nonempty.
Qed.

Lemma empty_or_not (s : string) : s = "" ∨ s ≠ "".
Proof. destruct s; [by left | by right]. Qed.

(** X9. The callback runs exactly when name and description are both
    non-empty; it then receives the values after the schema's cast.
    Otherwise the errors name the empty fields, and only those; the parent
    field never has an error. *)
Theorem handleSubmit_invokes_iff_fields_present {A : Type}
    (onValid : FormData.t → A) (data : FormData.t) :
  let attempt := handleSubmit onValid data in
  (attempt.2 = Some (onValid (schemaCast data))
   ∨ attempt.2 = None)
  ∧ (attempt.2 = None
     ↔ FormData.name data = "" ∨ FormData.description data = "")
  ∧ (is_Some (attempt.1 !! "name") ↔ FormData.name data = "")
  ∧ (is_Some (attempt.1 !! "description") ↔ FormData.description data = "")
  ∧ (∀ field, is_Some (attempt.1 !! field) →
       field = "name" ∨ field = "description").
Proof.
  intros attempt. subst attempt.
  destruct (empty_or_not (FormData.name data)) as [Hn|Hn],
    (empty_or_not (FormData.description data)) as [Hd|Hd].
  - rewrite handleSubmit_invalid by by left.
    cbn [fst snd]. rewrite schemaErrors_name, schemaErrors_description by done.
    split_and!; [by right | by split; [left|] | done..|].
    unfold schemaErrors, schema. cbn [foldr]. rewrite Hn, Hd.
    cbn [required fieldError]. intros field [m Hm].
    apply lookup_union_Some_raw in Hm as [Hm|[_ Hm]].
    + apply lookup_singleton_Some in Hm as [<- _]. by left.
    + apply lookup_union_Some_raw in Hm as [Hm|[_ Hm]]; [|done].
      apply lookup_singleton_Some in Hm as [<- _]. by right.
  - rewrite handleSubmit_invalid by by left.
    cbn [fst snd]. rewrite schemaErrors_name by done.
    assert (Herr : schemaErrors data
                   = {[ "name" := "Category name is required" ]}).
    { unfold schemaErrors, schema. cbn [foldr]. rewrite Hn.
      destruct (FormData.description data); [done|].
      cbn [required fieldError]. by rewrite !(right_id_L ∅ _). }
    rewrite Herr.
    split_and!; [by right | by split; [left|] | done | |].
    + rewrite lookup_singleton_ne by done. split; [by intros [? ?] | done].
    + intros field [m Hm]. apply lookup_singleton_Some in Hm as [<- _].
      by left.
  - rewrite handleSubmit_invalid by by right.
    cbn [fst snd]. rewrite schemaErrors_description by done.
    assert (Herr : schemaErrors data
                   = {[ "description" := "Description is required" ]}).
    { unfold schemaErrors, schema. cbn [foldr]. rewrite Hd.
      destruct (FormData.name data); [done|].
      cbn [required fieldError].
      by rewrite (right_id_L ∅ _), (left_id_L ∅ _). }
    rewrite Herr.
    split_and!; [by right | by split; [right|] | | done |].
    + rewrite lookup_singleton_ne by done. split; [by intros [? ?] | done].
    + intros field [m Hm]. apply lookup_singleton_Some in Hm as [<- _].
      by right.
  - rewrite handleSubmit_valid by done. cbn [fst snd].
    split_and!; [by left | | | |].
    + split; [done | by intros [|]].
    + rewrite lookup_empty. split; [by intros [? ?] | done].
    + rewrite lookup_empty. split; [by intros [? ?] | done].
    + intros field. rewrite lookup_empty. by intros [? ?].
Qed.

Lemma handleSubmit_invokes_iff_fields_present_witness :
  (handleSubmit (λ d, FormData.name d) (FormData.mk "Shoes" "" PidNull)).2
  = None
  ∧ is_Some ((handleSubmit (λ d, FormData.name d)
                (FormData.mk "Shoes" "" PidNull)).1 !! "description").
Proof.
  destruct (handleSubmit_invokes_iff_fields_present (λ d, FormData.name d)
              (FormData.mk "Shoes" "" PidNull))
    as (_ & Hnone & _ & Hdescription & _).
  split; [apply Hnone; right | apply Hdescription]; reflexivity.
Defined.

(** *** Submission *)

Lemma requestData_lookup_parent (active : bool) (data : FormData.t) :
  requestData active data !! "parentCategoryId"
  = match FormData.parentCategoryId data with
    | PidNull => None
    | PidUndefined => Some JUndefined
    | PidNumber n => Some (JNumber n)
    end.
Proof.
  unfold requestData, formData.
  destruct (FormData.parentCategoryId data); by simplify_map_eq.
Qed.

Lemma requestData_lookup_fields (active : bool) (data : FormData.t) :
  requestData active data !! "name" = Some (JString (FormData.name data))
  ∧ requestData active data !! "description"
    = Some (JString (FormData.description data))
  ∧ requestData active data !! "status"
    = Some (JString (if active then "ACTIVE" else "INACTIVE")).
Proof.
  unfold requestData, formData.
  destruct (FormData.parentCategoryId data); split_and!; by simplify_map_eq.
Qed.

Lemma requestData_dom (active : bool) (data : FormData.t) :
  dom (requestData active data)
  ⊆ {[ "name"; "description"; "status"; "parentCategoryId" ]}.
Proof.
  unfold requestData, formData.
  apply elem_of_subseteq. intros key.
  destruct (FormData.parentCategoryId data);
    rewrite !dom_insert_L, dom_empty_L, !elem_of_union, !elem_of_singleton,
      elem_of_empty; tauto.
Qed.

Lemma submitForm_calls (parseInt : string → number)
    (service : Request → Outcome) (id : option string)
    (active : bool) (data : FormData.t) (request : Request) :
  request ∈ serviceCalls (submitForm parseInt service id active data).2 →
  FormData.name data ≠ "" ∧ FormData.description data ≠ ""
  ∧ request = submitRequest parseInt id active (schemaCast data).
Proof.
  destruct (empty_or_not (FormData.name data)) as [Hn|Hn].
  { unfold submitForm. rewrite handleSubmit_invalid by by left.
    cbn. by intros ?%elem_of_nil. }
  destruct (empty_or_not (FormData.description data)) as [Hd|Hd].
  { unfold submitForm. rewrite handleSubmit_invalid by by right.
    cbn. by intros ?%elem_of_nil. }
  rewrite submitForm_valid by done. cbn [snd].
  rewrite onSubmit_serviceCalls. by intros ->%list_elem_of_singleton.
Qed.

(** X10. Whatever the form sends to the service has a non-empty name and
    description, a status that is "ACTIVE" or "INACTIVE", no key besides
    name, description, status and parentCategoryId, and never [NaN] as the
    parent: a [NaN] parent is sent as no parent at all. *)
Theorem submitted_payload_shape (parseInt : string → number)
    (service : Request → Outcome)
    (id : option string) (active : bool) (data : FormData.t)
    (request : Request) :
  request ∈ serviceCalls (submitForm parseInt service id active data).2 →
  let payload := payloadOf request in
  FormData.name data ≠ ""
  ∧ FormData.description data ≠ ""
  ∧ payload !! "name" = Some (JString (FormData.name data))
  ∧ payload !! "description" = Some (JString (FormData.description data))
  ∧ payload !! "status" = Some (JString (if active then "ACTIVE" else "INACTIVE"))
  ∧ dom payload ⊆ {[ "name"; "description"; "status"; "parentCategoryId" ]}
  ∧ payload !! "parentCategoryId" ≠ Some (JNumber NaN)
  ∧ (FormData.parentCategoryId data = PidNumber NaN →
       payload !! "parentCategoryId" = None).
Proof.
  intros (Hn & Hd & ->)%submitForm_calls payload. subst payload.
  rewrite payloadOf_submitRequest.
  destruct (requestData_lookup_fields active (schemaCast data))
    as (Hname & Hdescription & Hstatus).
  split_and!; try done.
  - apply requestData_dom.
  - rewrite requestData_lookup_parent. cbn.
    destruct (FormData.parentCategoryId data) as [| |[|z|b]]; by cbn.
  - intros Hnan. rewrite requestData_lookup_parent. cbn. by rewrite Hnan.
Qed.

Lemma submitted_payload_shape_witness :
  payloadOf (CreateCategory
               (requestData true (FormData.mk "Shoes" "Footwear" PidNull)))
    !! "parentCategoryId"
  = None.
Proof.
  refine (proj2 (proj2 (proj2 (proj2 (proj2 (proj2 (proj2
    (submitted_payload_shape sampleParseInt (λ _, Resolved None) None true
       (FormData.mk "Shoes" "Footwear" (PidNumber NaN))
       (CreateCategory
          (requestData true (FormData.mk "Shoes" "Footwear" PidNull)))
       _))))))) eq_refl).
  apply list_elem_of_here.
Defined.

(** X11. Every run of the submit handler starts with the "saving" notice and
    ends with exactly one more notice: a success notice together with the
    navigation to the list, or an error notice and no navigation. *)
Theorem onSubmit_one_final_notice (parseInt : string → number)
    (service : Request → Outcome)
    (id : option string) (active : bool) (data : FormData.t) :
  let trace := onSubmit parseInt service id active data in
  head trace = Some (ShowNotification "Saving category..." SevInfo)
  ∧ ∃ message severity,
      notices trace = [("Saving category...", SevInfo); (message, severity)]
      ∧ ((severity = SevSuccess ∧ navigations trace = ["/categories"])
         ∨ (severity = SevError ∧ navigations trace = [])).
Proof.
  cbn zeta. unfold onSubmit. split; [done|].
  destruct (service _) as [response|error].
  - destruct (isSuccess response); eexists _, _; cbn;
      (split; [reflexivity|]); [by left | by right].
  - eexists _, _. cbn. split; [reflexivity | by right].
Qed.

(** X12. Leaving a loaded category untouched and submitting it sends an
    update, for the number the route id parses to, with the fetched name,
    description and status, and with the parent's id, or without parent
    when there is none or its id is 0 or [NaN]. *)
Theorem edit_without_changes_round_trip (parseInt : string → number)
    (fetchCategory : number → option (ApiResponse CategoryResponse.t))
    (service : Request → Outcome)
    (id : option string) (i : string) (st : State)
    (message : option string) (category : CategoryResponse.t) :
  truthy id = Some i →
  fetchCategory (parseInt i)
  = Some (mkResponse "SUCCESS" message (Some category)) →
  CategoryResponse.name category ≠ "" →
  CategoryResponse.description category ≠ "" →
  let loaded := loadCategory parseInt fetchCategory id st in
  let attempt := submitForm parseInt service id (isActive loaded) (values loaded) in
  attempt.1 = ∅
  ∧ ∃ payload,
      serviceCalls attempt.2 = [UpdateCategory (parseInt i) payload]
      ∧ payload !! "name" = Some (JString (CategoryResponse.name category))
      ∧ payload !! "description"
        = Some (JString (CategoryResponse.description category))
      ∧ payload !! "status"
        = Some (JString match CategoryResponse.status category with
                        | ACTIVE => "ACTIVE"
                        | INACTIVE => "INACTIVE"
                        end)
      ∧ payload !! "parentCategoryId"
        = match CategoryResponse.parentCategory category with
          | Some p =>
              if truthy_number (CategoryResponse.id p)
              then Some (JNumber (CategoryResponse.id p))
              else None
          | None => None
          end.
Proof.
  intros Hid Hfetch Hname Hdescription loaded attempt.
  subst attempt loaded.
  rewrite (loadCategory_success _ _ _ _ _ _ _ Hid Hfetch).
  rewrite (loadCategory_isActive _ _ _ _ _ _ _ Hid Hfetch).
  rewrite submitForm_valid by done. cbn [fst snd].
  split; [done|]. rewrite onSubmit_serviceCalls.
  unfold schemaCast. cbn [FormData.name FormData.description
                            FormData.parentCategoryId].
  rewrite transformParentId_parentIdOf.
  unfold submitRequest. rewrite Hid. eexists. split; [reflexivity|].
  match goal with
  | |- context [requestData ?a ?d] =>
      destruct (requestData_lookup_fields a d) as (Hn & Hd & Hs);
      pose proof (requestData_lookup_parent a d) as Hp
  end.
  split_and!; [done | done | |].
  - rewrite Hs. by destruct (CategoryResponse.status category).
  - rewrite Hp. cbn. unfold parentIdOf.
    destruct (CategoryResponse.parentCategory category) as [p|]; [|done].
    by destruct (truthy_number (CategoryResponse.id p)).
Qed.

Lemma edit_without_changes_round_trip_witness :
  ∃ payload,
    serviceCalls
      (submitForm sampleParseInt (λ _, Resolved None) (Some "5")
         (isActive (loadCategory sampleParseInt fetchShoes (Some "5") initialState))
         (values (loadCategory sampleParseInt fetchShoes (Some "5") initialState))).2
    = [UpdateCategory (Num 5) payload]
    ∧ payload !! "name" = Some (JString "Shoes")
    ∧ payload !! "parentCategoryId" = Some (JNumber (Num 2)).
Proof.
  destruct (edit_without_changes_round_trip sampleParseInt fetchShoes (λ _, Resolved None)
              (Some "5") "5" initialState None shoes eq_refl eq_refl)
    as (_ & payload & Hcalls & Hname & _ & _ & Hparent); [discriminate..|].
  exists payload. split_and!; [exact Hcalls | exact Hname | exact Hparent].
Defined.

(** *** The parent dropdown and the route id *)

Lemma filter_all {A : Type} (p : A → bool) (l : list A) :
  (∀ x, p x = true) → List.filter p l = l.
Proof.
  intros Hp. induction l as [|x l IH]; [done|].
  cbn. by rewrite Hp, IH.
Qed.

(** X13. In edit mode, a parent picked from the dropdown is never the edited
    category: when the route id parses to [n], the update that the form
    sends for category [n] does not carry [n] as parentCategoryId. *)
Theorem dropdown_choice_is_never_self (parseInt : string → number)
    (service : Request → Outcome)
    (categories shown : list CategorySummary) (id : option string)
    (i : string) (n : Z) (active : bool) (name description : string)
    (choice : CategorySummary) (request : Request) :
  truthy id = Some i →
  parseInt i = Num n →
  parentCandidates parseInt (Some categories) id = Some shown →
  choice ∈ shown →
  request ∈ serviceCalls
              (submitForm parseInt service id active
                 (FormData.mk name description
                    (onSelectChange (Some (summary_id choice))))).2 →
  ∃ payload,
    request = UpdateCategory (Num n) payload
    ∧ payload !! "parentCategoryId" ≠ Some (JNumber (Num n)).
Proof.
  intros Hid Hn Hshown Hchoice (_ & _ & ->)%submitForm_calls.
  destruct (isEditMode_truthy _ _ Hid) as [Hedit Hor].
  unfold parentCandidates in Hshown. rewrite Hedit, Hor, Hn in Hshown.
  cbn in Hshown. injection Hshown as <-.
  apply list_elem_of_In, filter_In in Hchoice as [_ Hne].
  apply strict_neq_Num in Hne.
  unfold submitRequest. rewrite Hid, Hn. eexists. split; [reflexivity|].
  rewrite requestData_lookup_parent. cbn.
  destruct (summary_id choice) as [|z|b]; cbn; congruence.
Qed.

Lemma dropdown_choice_is_never_self_witness :
  ∃ payload,
    UpdateCategory (Num 5)
      (requestData true (FormData.mk "Shoes" "Footwear" (PidNumber (Num 2))))
    = UpdateCategory (Num 5) payload
    ∧ payload !! "parentCategoryId" ≠ Some (JNumber (Num 5)).
Proof.
  apply (dropdown_choice_is_never_self sampleParseInt (λ _, Resolved None) sampleCategories
           [mkSummary (Num 1) "Electronics"; mkSummary (Num 2) "Apparel";
            mkSummary (Num 7) "Toys"]
           (Some "5") "5" 5 true "Shoes" "Footwear"
           (mkSummary (Num 2) "Apparel")).
  - reflexivity.
  - reflexivity.
  - reflexivity.
  - apply list_elem_of_further, list_elem_of_here.
  - apply list_elem_of_here.
Defined.

(** X14. A non-empty route id that [parseInt] maps to [NaN] still puts the
    form in edit mode: the category is fetched and updated with [NaN] as
    its id, and the dropdown excludes nothing. *)
Theorem non_numeric_id_edit_mode (parseInt : string → number)
    (fetchCategory : number → option (ApiResponse CategoryResponse.t))
    (service : Request → Outcome) (id : option string) (i : string)
    (categories : option (list CategorySummary)) (active : bool)
    (data : FormData.t) (st : State) :
  truthy id = Some i →
  parseInt i = NaN →
  parentCandidates parseInt categories id = categories
  ∧ loadCategory parseInt fetchCategory id st = onCategoryFetched (fetchCategory NaN) st
  ∧ serviceCalls (onSubmit parseInt service id active data)
    = [UpdateCategory NaN (requestData active data)].
Proof.
  intros Hid Hnan. destruct (isEditMode_truthy _ _ Hid) as [Hedit Hor].
  split_and!.
  - unfold parentCandidates. rewrite Hedit, Hor, Hnan.
    destruct categories as [cats|]; [|done]. cbn. f_equal.
    apply filter_all. by intros [[|z|b] ?].
  - unfold loadCategory. by rewrite Hid, Hnan.
  - rewrite onSubmit_serviceCalls. unfold submitRequest. by rewrite Hid, Hnan.
Qed.

Lemma non_numeric_id_edit_mode_witness :
  parentCandidates sampleParseInt (Some sampleCategories) (Some "new")
  = Some sampleCategories
  ∧ serviceCalls
      (onSubmit sampleParseInt (λ _, Resolved None) (Some "new") true
         (FormData.mk "Shoes" "Footwear" PidNull))
    = [UpdateCategory NaN
         (requestData true (FormData.mk "Shoes" "Footwear" PidNull))].
Proof.
  destruct (non_numeric_id_edit_mode sampleParseInt fetchShoes (λ _, Resolved None)
              (Some "new") "new" (Some sampleCategories) true
              (FormData.mk "Shoes" "Footwear" PidNull) initialState
              eq_refl eq_refl)
    as (Hshown & _ & Hcalls).
  split; [exact Hshown | exact Hcalls].
Defined.

(** X15. The parent control shows the chosen entry again exactly for "None" and
    for ids other than 0 and [NaN]. A chosen category with id 0 is shown as
    "None" although its id is what the form submits. *)
Theorem select_shows_choice_iff :
  (∀ target,
     selectValue (onSelectChange target) = target
     ↔ target = None ∨ ∃ n, target = Some n ∧ truthy_number n = true)
  ∧ (∀ active name description n,
       truthy_number n = false → isNaN n = false →
       let data :=
         FormData.mk name description (onSelectChange (Some n)) in
       selectValue (FormData.parentCategoryId data) = None
       ∧ requestData active (schemaCast data) !! "parentCategoryId"
         = Some (JNumber n)).
Proof.
  split.
  - intros [n|]; cbn; [|by split; [left|]].
    destruct (truthy_number n) eqn:Hn.
    + split; [right; by exists n | done].
    + split; [done|]. intros [|(m & [= <-] & Hm)]; congruence.
  - intros active name description n Hfalsy Hnan. cbn zeta.
    rewrite requestData_lookup_parent. cbn. by rewrite Hfalsy, Hnan.
Qed.

Lemma select_shows_choice_iff_witness :
  selectValue (onSelectChange (Some (Num 2))) = Some (Num 2)
  ∧ selectValue (onSelectChange (Some (Num 0))) = None
  ∧ requestData true
      (schemaCast (FormData.mk "Shoes" "Footwear"
                     (onSelectChange (Some (Num 0)))))
      !! "parentCategoryId"
    = Some (JNumber (Num 0)).
Proof.
  destruct select_shows_choice_iff as [Hshow Hzero].
  split.
  - apply Hshow. right. exists (Num 2). split; reflexivity.
  - exact (Hzero true "Shoes" "Footwear" (Num 0) eq_refl eq_refl).
Defined.

(** *** The page around the form *)

(** X16. Page and form read the route id the same way: the page is titled
    "Add New Category" exactly when the form is in create mode, and then a
    submission creates; otherwise the title shows the id as it stands in
    the route and a submission updates the category that id parses to. *)
Theorem page_and_form_agree_on_mode (parseInt : string → number)
    (id : option string) (active : bool)
    (data : FormData.t) :
  isNewCategory id = negb (isEditMode id)
  ∧ (pageTitle id = "Add New Category"
     ↔ submitLabel id = "Create Category")
  ∧ (pageTitle id = "Add New Category" →
       formTitle id = "Create New Category"
       ∧ submitRequest parseInt id active data
         = CreateCategory (requestData active data))
  ∧ (∀ i, truthy id = Some i →
       pageTitle id = "Edit Category #" +:+ i
       ∧ formTitle id = "Edit Category"
       ∧ submitLabel id = "Update Category"
       ∧ submitRequest parseInt id active data
         = UpdateCategory (parseInt i) (requestData active data)).
Proof.
  unfold isNewCategory, isEditMode, pageTitle, submitLabel, formTitle,
    submitRequest, isNewCategory, isEditMode.
  destruct (truthy id) as [i|] eqn:Hid.
  - apply truthy_nonempty in Hid as [-> _]. cbn [negb default].
    split_and!; [done | | | by intros ? [= <-]].
    + split; intros H; vm_compute in H; discriminate.
    + intros H; vm_compute in H; discriminate.
  - cbn [negb]. split_and!; done.
Qed.

Lemma page_and_form_agree_on_mode_witness :
  pageTitle (Some "5") = "Edit Category #5"
  ∧ submitRequest sampleParseInt (Some "5") true (FormData.mk "Shoes" "Footwear" PidNull)
    = UpdateCategory (Num 5)
        (requestData true (FormData.mk "Shoes" "Footwear" PidNull)).
Proof.
  destruct (page_and_form_agree_on_mode sampleParseInt (Some "5") true
              (FormData.mk "Shoes" "Footwear" PidNull))
    as (_ & _ & _ & Hedit).
  destruct (Hedit "5" eq_refl) as (Htitle & _ & _ & Hrequest).
  split; [exact Htitle | exact Hrequest].
Defined.

End CategoryFormExtra.
